(** * remoroo-core: the packaging manifest [setup.py]

    The repository's only authored file is [setup.py]: an import of
    [setup] and [find_packages] from setuptools, followed by one call of
    [setup] with five keyword arguments.

    The development has three layers.
    - [Py]: the syntax of the Python fragment the manifest is written in
      (with the statement forms a module would use to define functions,
      classes or data, so that their absence can be stated), and an
      interpreter for it.  Everything that is not authored here, that is
      the import system and the objects imported from setuptools, is an
      interface the interpreter is parametrised by; each answer of that
      interface may be an exception.
    - [Manifest]: the syntax tree of [setup.py], transcribed line by line,
      the same program written directly in the interpreter's monad, the
      ways a run of it can go, and two small worlds to run it in.
    - [Packaging]: the two conventions of the packaging tooling that the
      declared metadata is read with: requirement strings
      (name, comparison, version) and the directory of a package under a
      [package_dir] mapping.

    The lemmas follow: first what every run of the manifest does, then what
    the manifest declares. *)

From Stdlib Require Import String Ascii List Bool Arith ZArith Lia.
Import ListNotations.
Local Open Scope string_scope.
Local Open Scope list_scope.
#[local] Set Warnings "-register-all".

(* ================================================================== *)
(** * The Python fragment *)
(* ================================================================== *)

Module Py.

(** ** Syntax *)

Inductive constant : Type :=
| Str (s : string)
| Int (n : Z)
| NoneC.

Inductive expr : Type :=
| Constant (c : constant)
| Name (id : string)
| List_ (elts : list expr)
| Dict (items : list (expr * expr))
| Call (func : expr) (args : list expr) (keywords : list (string * expr)).

Inductive stmt : Type :=
| ImportFrom (module : string) (names : list string)
| Expr (value : expr)
| Assign (target : string) (value : expr)
| Raise (exc : expr)
| FunctionDef (name : string) (params : list string) (body : list stmt)
| ClassDef (name : string) (body : list stmt).

(** ** Values *)

Inductive value : Type :=
| VStr (s : string)
| VInt (n : Z)
| VNone
| VList (elts : list value)
| VDict (items : list (value * value))
| VImported (module name : string)
| VFunction (name : string) (params : list string) (body : list stmt)
| VClass (name : string) (attrs : list (string * value)).

Definition namespace : Type := list (string * value).

Definition value_of_constant (c : constant) : value :=
  match c with
  | Str s => VStr s
  | Int n => VInt n
  | NoneC => VNone
  end.

Fixpoint lookup {A : Type} (k : string) (m : list (string * A)) : option A :=
  match m with
  | [] => None
  | (k', v) :: m' => if String.eqb k k' then Some v else lookup k m'
  end.

(** Binding a name: an existing binding is replaced in place, a new one is
    appended (a Python dict keeps insertion order). *)
Fixpoint bind_name {A : Type} (k : string) (v : A) (m : list (string * A))
  : list (string * A) :=
  match m with
  | [] => [(k, v)]
  | (k', v') :: m' =>
      if String.eqb k k' then (k, v) :: m' else (k', v') :: bind_name k v m'
  end.

(** Dictionary keys.  [str], [int] and [None] keys are compared by value;
    lists and dicts are unhashable; keys of any other kind (objects compared
    by identity) are outside the fragment. *)
Inductive key_kind : Type := Hashable | Unhashable | ByIdentity.

Definition key_kind_of (v : value) : key_kind :=
  match v with
  | VStr _ | VInt _ | VNone => Hashable
  | VList _ | VDict _ => Unhashable
  | VImported _ _ | VFunction _ _ _ | VClass _ _ => ByIdentity
  end.

Definition key_eqb (a b : value) : bool :=
  match a, b with
  | VStr s, VStr t => String.eqb s t
  | VInt n, VInt m => Z.eqb n m
  | VNone, VNone => true
  | _, _ => false
  end.

Fixpoint dict_set (k v : value) (d : list (value * value))
  : list (value * value) :=
  match d with
  | [] => [(k, v)]
  | (k', v') :: d' =>
      if key_eqb k k' then (k', v) :: d' else (k', v') :: dict_set k v d'
  end.

(** ** Exceptions

    [ImportFailed] and [ToolRaised] are raised outside the authored code, by
    the import system or inside an imported object; the others are raised by
    the evaluation of the authored code itself. *)

Inductive exn : Type :=
| NameError (id : string)
| TypeError (what : string)
| Raised (v : value)
| NotModelled (what : string)
| ImportFailed (module name : string) (msg : string)
| ToolRaised (module name : string) (msg : string).

Definition authored (e : exn) : bool :=
  match e with
  | ImportFailed _ _ _ | ToolRaised _ _ _ => false
  | _ => true
  end.

(** ** The world outside the module

    [W] is the state of everything the module can reach but does not
    contain: the file system, [sys.argv], [os.environ], the installed
    distributions.  The interpreter never inspects it: it only hands it to
    the import system and to imported objects. *)

Inductive event : Type :=
| EvImport (module name : string)
| EvCall (module name : string) (args : list value)
         (kwargs : list (string * value)).

Record tooling (W : Type) : Type := {
  builtin : string -> bool;
  import_from : string -> string -> W -> W * option string;
  call : string -> string -> list value -> list (string * value) ->
         W -> W * (string + value)
}.
Arguments builtin {W} _ _.
Arguments import_from {W} _ _ _ _.
Arguments call {W} _ _ _ _ _ _.

Record state (W : Type) : Type := {
  globals : namespace;
  locals : option namespace;
  world : W;
  trace : list event
}.
Arguments globals {W} _.
Arguments locals {W} _.
Arguments world {W} _.
Arguments trace {W} _.
Arguments Build_state {W} _ _ _ _.

Section Interpreter.

Context {W : Type} (T : tooling W).

(** State and exceptions: a computation returns the state it reached and
    either a result or the exception that stopped it. *)
Definition M (A : Type) : Type := state W -> state W * (exn + A).

Definition ret {A : Type} (a : A) : M A := fun s => (s, inr a).

Definition raise {A : Type} (e : exn) : M A := fun s => (s, inl e).

Definition bind {A B : Type} (m : M A) (f : A -> M B) : M B :=
  fun s =>
    match m s with
    | (s', inr a) => f a s'
    | (s', inl e) => (s', inl e)
    end.

Notation "x <- m ;; k" := (bind m (fun x => k))
  (at level 61, m at next level, right associativity).
Notation "m ;;; k" := (bind m (fun _ => k))
  (at level 61, right associativity).

Definition log (ev : event) : M unit :=
  fun s => (Build_state (globals s) (locals s) (world s) (trace s ++ [ev]),
            inr tt).

(** Name resolution: the class body's namespace when inside one, then the
    module's globals, then the builtins. *)
Definition load (id : string) : M value :=
  fun s =>
    let in_globals :=
      match lookup id (globals s) with
      | Some v => inr v
      | None => if builtin T id then inr (VImported "builtins" id)
                else inl (NameError id)
      end in
    match locals s with
    | Some l =>
        match lookup id l with
        | Some v => (s, inr v)
        | None => (s, in_globals)
        end
    | None => (s, in_globals)
    end.

Definition store (id : string) (v : value) : M unit :=
  fun s =>
    match locals s with
    | Some l =>
        (Build_state (globals s) (Some (bind_name id v l)) (world s) (trace s),
         inr tt)
    | None =>
        (Build_state (bind_name id v (globals s)) None (world s) (trace s),
         inr tt)
    end.

(** [from module import name]: one query of the import system per name. *)
Definition import_name (module name : string) : M unit :=
  log (EvImport module name) ;;;
  (fun s =>
     match import_from T module name (world s) with
     | (w', None) =>
         store name (VImported module name)
           (Build_state (globals s) (locals s) w' (trace s))
     | (w', Some msg) =>
         (Build_state (globals s) (locals s) w' (trace s),
          inl (ImportFailed module name msg))
     end).

(** Calling an object.  An imported object is called in the world outside;
    anything it raises is its own.  Calling a function or a class defined in
    Python is outside the fragment; the remaining values are not callable. *)
Definition call_value (f : value) (args : list value)
    (kwargs : list (string * value)) : M value :=
  match f with
  | VImported module name =>
      log (EvCall module name args kwargs) ;;;
      (fun s =>
         match call T module name args kwargs (world s) with
         | (w', inr v) =>
             (Build_state (globals s) (locals s) w' (trace s), inr v)
         | (w', inl msg) =>
             (Build_state (globals s) (locals s) w' (trace s),
              inl (ToolRaised module name msg))
         end)
  | VFunction _ _ _ => raise (NotModelled "call of a Python function")
  | VClass _ _ => raise (NotModelled "instantiation of a Python class")
  | _ => raise (TypeError "object is not callable")
  end.

Definition dict_store (k v : value) (d : list (value * value))
  : M (list (value * value)) :=
  match key_kind_of k with
  | Hashable => ret (dict_set k v d)
  | Unhashable => raise (TypeError "unhashable type")
  | ByIdentity => raise (NotModelled "dictionary key compared by identity")
  end.

(** Expressions: operands are evaluated left to right; in a call the callee
    first, then the positional arguments, then the keyword arguments. *)
Fixpoint eval (e : expr) : M value :=
  match e with
  | Constant c => ret (value_of_constant c)
  | Name id => load id
  | List_ elts =>
      vs <- (fix eval_list (l : list expr) : M (list value) :=
               match l with
               | [] => ret []
               | x :: l' => v <- eval x ;; vs <- eval_list l' ;; ret (v :: vs)
               end) elts ;;
      ret (VList vs)
  | Dict items =>
      d <- (fix eval_items (l : list (expr * expr)) (acc : list (value * value))
              : M (list (value * value)) :=
              match l with
              | [] => ret acc
              | (ke, ve) :: l' =>
                  k <- eval ke ;; v <- eval ve ;;
                  acc' <- dict_store k v acc ;;
                  eval_items l' acc'
              end) items [] ;;
      ret (VDict d)
  | Call func args keywords =>
      f <- eval func ;;
      vs <- (fix eval_list (l : list expr) : M (list value) :=
               match l with
               | [] => ret []
               | x :: l' => v <- eval x ;; vs <- eval_list l' ;; ret (v :: vs)
               end) args ;;
      kws <- (fix eval_keywords (l : list (string * expr))
                : M (list (string * value)) :=
                match l with
                | [] => ret []
                | (k, x) :: l' =>
                    v <- eval x ;; kws <- eval_keywords l' ;; ret ((k, v) :: kws)
                end) keywords ;;
      call_value f vs kws
  end.

Fixpoint import_names (module : string) (names : list string) : M unit :=
  match names with
  | [] => ret tt
  | n :: names' => import_name module n ;;; import_names module names'
  end.

(** A class body runs in a namespace of its own, which becomes the class's
    attributes; the surrounding namespace is restored afterwards. *)
Definition enter_class : M (option namespace) :=
  fun s => (Build_state (globals s) (Some []) (world s) (trace s),
            inr (locals s)).

Definition leave_class (outer : option namespace) : M namespace :=
  fun s => (Build_state (globals s) outer (world s) (trace s),
            inr (match locals s with Some l => l | None => [] end)).

(** Statements.  A [def] binds a function object without running its body;
    only exceptions that are imported objects can be raised. *)
Fixpoint exec (st : stmt) : M unit :=
  match st with
  | ImportFrom module names => import_names module names
  | Expr e => eval e ;;; ret tt
  | Assign target e => v <- eval e ;; store target v
  | Raise e =>
      v <- eval e ;;
      match v with
      | VImported _ _ => raise (Raised v)
      | _ => raise (TypeError "exceptions must derive from BaseException")
      end
  | FunctionDef name params body => store name (VFunction name params body)
  | ClassDef name body =>
      outer <- enter_class ;;
      (fix exec_body (l : list stmt) : M unit :=
         match l with
         | [] => ret tt
         | x :: l' => exec x ;;; exec_body l'
         end) body ;;;
      attrs <- leave_class outer ;;
      store name (VClass name attrs)
  end.

Fixpoint exec_block (l : list stmt) : M unit :=
  match l with
  | [] => ret tt
  | x :: l' => exec x ;;; exec_block l'
  end.

(** Running a module: a fresh, empty global namespace in the world [w]. *)
Definition initial (w : W) : state W := Build_state [] None w [].

Definition run_module (m : list stmt) (w : W) : state W * (exn + unit) :=
  exec_block m (initial w).

End Interpreter.

Declare Scope py_scope.
Delimit Scope py_scope with py.
Notation "x <- m ;; k" := (bind m (fun x => k))
  (at level 61, m at next level, right associativity) : py_scope.
Notation "m ;;; k" := (bind m (fun _ => k))
  (at level 61, right associativity) : py_scope.

End Py.

(* ================================================================== *)
(** * The manifest *)
(* ================================================================== *)

Module Manifest.
Import Py.

(** [setup.py], statement by statement. *)
Definition setup_py : list stmt :=
  [ ImportFrom "setuptools" ["setup"; "find_packages"];
    Expr
      (Call (Name "setup") []
         [ ("name", Constant (Str "remoroo-core"));
           ("version", Constant (Str "0.1.2"));
           ("packages",
             Call (Name "find_packages") [] [("where", Constant (Str "src"))]);
           ("package_dir", Dict [(Constant (Str ""), Constant (Str "src"))]);
           ("install_requires", List_ [Constant (Str "pydantic>=2.0.0")]) ]) ].

(** ** Reading the syntax *)

(** A literal: a constant, or a list or dict display of literals. *)
Fixpoint is_literal (e : expr) : bool :=
  match e with
  | Constant _ => true
  | Name _ => false
  | List_ elts => forallb is_literal elts
  | Dict items =>
      forallb (fun kv => is_literal (fst kv) && is_literal (snd kv)) items
  | Call _ _ _ => false
  end.

(** Statements that define something: a function, a class, or a name bound
    to a value built by the module. *)
Definition is_definition (st : stmt) : bool :=
  match st with
  | FunctionDef _ _ _ | ClassDef _ _ | Assign _ _ => true
  | _ => false
  end.

Definition is_import (st : stmt) : bool :=
  match st with
  | ImportFrom _ _ => true
  | _ => false
  end.

Definition is_raise (st : stmt) : bool :=
  match st with
  | Raise _ => true
  | _ => false
  end.

(** The keyword arguments of the top-level statements that call [callee]. *)
Definition calls_of (callee : string) (m : list stmt)
  : list (list expr * list (string * expr)) :=
  flat_map
    (fun st =>
       match st with
       | Expr (Call (Name f) args keywords) =>
           if String.eqb f callee then [(args, keywords)] else []
       | _ => []
       end) m.

Definition literal_arguments (c : list expr * list (string * expr)) : bool :=
  forallb is_literal (fst c) && forallb (fun kv => is_literal (snd kv)) (snd c).

(** Apart from imports, every top-level statement is a call of [callee]. *)
Definition only_calls (callee : string) (m : list stmt) : bool :=
  forallb
    (fun st =>
       is_import st ||
       match st with
       | Expr (Call (Name f) _ _) => String.eqb f callee
       | _ => false
       end) m.

(** A module that is nothing but one call of [callee] on literals. *)
Definition single_literal_call (callee : string) (m : list stmt) : Prop :=
  only_calls callee m = true /\
  existsb is_definition m = false /\
  exists c, calls_of callee m = [c] /\ literal_arguments c = true.

(** ** Reading a run *)

(** The calls of [module.name] recorded in a trace, oldest first. *)
Definition calls_to (module name : string) (tr : list event)
  : list (list value * list (string * value)) :=
  flat_map
    (fun ev =>
       match ev with
       | EvCall m n args kwargs =>
           if String.eqb m module && String.eqb n name
           then [(args, kwargs)] else []
       | EvImport _ _ => []
       end) tr.

Section Runs.

Context {W : Type} (T : tooling W).

Definition run (w : W) : state W * (exn + unit) := run_module T setup_py w.

(** What the manifest hands to [setup] in the world [w]: the metadata it
    declares. *)
Definition declared (w : W) : list (list value * list (string * value)) :=
  calls_to "setuptools" "setup" (trace (fst (run w))).

(** What it asks of [find_packages]. *)
Definition discovery (w : W) : list (list value * list (string * value)) :=
  calls_to "setuptools" "find_packages" (trace (fst (run w))).

(** The manifest written directly in the interpreter's monad. *)
Definition manifest : M unit :=
  (import_name T "setuptools" "setup" ;;;
   import_name T "setuptools" "find_packages" ;;;
   setup <- load T "setup" ;;
   find_packages <- load T "find_packages" ;;
   packages <- call_value T find_packages [] [("where", VStr "src")] ;;
   call_value T setup []
     [ ("name", VStr "remoroo-core");
       ("version", VStr "0.1.2");
       ("packages", packages);
       ("package_dir", VDict [(VStr "", VStr "src")]);
       ("install_requires", VList [VStr "pydantic>=2.0.0"]) ] ;;;
   ret tt)%py.

End Runs.

(** The keyword arguments [setup] receives when [find_packages] has
    answered [packages]. *)
Definition setup_kwargs (packages : value) : list (string * value) :=
  [ ("name", VStr "remoroo-core");
    ("version", VStr "0.1.2");
    ("packages", packages);
    ("package_dir", VDict [(VStr "", VStr "src")]);
    ("install_requires", VList [VStr "pydantic>=2.0.0"]) ].

Definition imported : namespace :=
  [ ("setup", VImported "setuptools" "setup");
    ("find_packages", VImported "setuptools" "find_packages") ].

Definition where_src : list (string * value) := [("where", VStr "src")].

Definition event_module (ev : event) : string :=
  match ev with
  | EvImport m _ => m
  | EvCall m _ _ _ => m
  end.

(** The ways a run of the manifest can go, by what the world answers: either
    import can fail, either call can raise, or everything answers. *)
Inductive runs {W : Type} (T : tooling W) (w : W)
  : state W * (exn + unit) -> Prop :=
| setup_not_importable w1 msg :
    import_from T "setuptools" "setup" w = (w1, Some msg) ->
    runs T w
      (Build_state [] None w1 [EvImport "setuptools" "setup"],
       inl (ImportFailed "setuptools" "setup" msg))
| find_packages_not_importable w1 w2 msg :
    import_from T "setuptools" "setup" w = (w1, None) ->
    import_from T "setuptools" "find_packages" w1 = (w2, Some msg) ->
    runs T w
      (Build_state [("setup", VImported "setuptools" "setup")] None w2
         [EvImport "setuptools" "setup";
          EvImport "setuptools" "find_packages"],
       inl (ImportFailed "setuptools" "find_packages" msg))
| find_packages_raises w1 w2 w3 msg :
    import_from T "setuptools" "setup" w = (w1, None) ->
    import_from T "setuptools" "find_packages" w1 = (w2, None) ->
    call T "setuptools" "find_packages" [] where_src w2 = (w3, inl msg) ->
    runs T w
      (Build_state imported None w3
         [EvImport "setuptools" "setup";
          EvImport "setuptools" "find_packages";
          EvCall "setuptools" "find_packages" [] where_src],
       inl (ToolRaised "setuptools" "find_packages" msg))
| setup_raises w1 w2 w3 w4 packages msg :
    import_from T "setuptools" "setup" w = (w1, None) ->
    import_from T "setuptools" "find_packages" w1 = (w2, None) ->
    call T "setuptools" "find_packages" [] where_src w2 = (w3, inr packages) ->
    call T "setuptools" "setup" [] (setup_kwargs packages) w3 = (w4, inl msg) ->
    runs T w
      (Build_state imported None w4
         [EvImport "setuptools" "setup";
          EvImport "setuptools" "find_packages";
          EvCall "setuptools" "find_packages" [] where_src;
          EvCall "setuptools" "setup" [] (setup_kwargs packages)],
       inl (ToolRaised "setuptools" "setup" msg))
| completes w1 w2 w3 w4 packages result :
    import_from T "setuptools" "setup" w = (w1, None) ->
    import_from T "setuptools" "find_packages" w1 = (w2, None) ->
    call T "setuptools" "find_packages" [] where_src w2 = (w3, inr packages) ->
    call T "setuptools" "setup" [] (setup_kwargs packages) w3
      = (w4, inr result) ->
    runs T w
      (Build_state imported None w4
         [EvImport "setuptools" "setup";
          EvImport "setuptools" "find_packages";
          EvCall "setuptools" "find_packages" [] where_src;
          EvCall "setuptools" "setup" [] (setup_kwargs packages)],
       inr tt).

(** The strings of a list of [str], and the items of a dict from [str] to
    [str]; [None] for any other value. *)
Fixpoint strings_of (l : list value) : option (list string) :=
  match l with
  | [] => Some []
  | VStr s :: l' =>
      match strings_of l' with
      | Some ss => Some (s :: ss)
      | None => None
      end
  | _ :: _ => None
  end.

Fixpoint string_items_of (d : list (value * value))
  : option (list (string * string)) :=
  match d with
  | [] => Some []
  | (VStr k, VStr v) :: d' =>
      match string_items_of d' with
      | Some kvs => Some ((k, v) :: kvs)
      | None => None
      end
  | _ :: _ => None
  end.

Definition requirements_of (kwargs : list (string * value))
  : option (list string) :=
  match lookup "install_requires" kwargs with
  | Some (VList l) => strings_of l
  | _ => None
  end.

Definition package_dir_of (kwargs : list (string * value))
  : option (list (string * string)) :=
  match lookup "package_dir" kwargs with
  | Some (VDict d) => string_items_of d
  | _ => None
  end.

(** ** Two worlds to run the manifest in

    In [installed] setuptools can be imported, the world is the list of
    packages lying under [src], and [find_packages] reports them when asked
    to look there.  In [bare] setuptools is not installed. *)

Definition installed : tooling (list string) := {|
  builtin := fun _ => false;
  import_from := fun module _ w =>
    (w, if String.eqb module "setuptools" then None
        else Some "No module named that");
  call := fun _ name _ kwargs w =>
    if String.eqb name "find_packages" then
      match lookup "where" kwargs with
      | Some (VStr "src") => (w, inr (VList (map VStr w)))
      | _ => (w, inr (VList []))
      end
    else (w, inr VNone)
|}.

Definition bare : tooling unit := {|
  builtin := fun _ => false;
  import_from := fun _ _ w => (w, Some "No module named setuptools");
  call := fun _ _ _ _ w => (w, inl "nothing to call")
|}.

(** A world in which setuptools can be imported and [find_packages] and
    [setup] give the scripted answers [found] and [built], each either a
    value or the message of an exception. *)
Definition scripted (found built : string + value) : tooling unit := {|
  builtin := fun _ => false;
  import_from := fun _ _ w => (w, None);
  call := fun _ name _ _ w =>
    (w, if String.eqb name "find_packages" then found else built)
|}.


End Manifest.

(* ================================================================== *)
(** * Conventions of the packaging tooling *)
(* ================================================================== *)

(** The declared metadata is data for the packaging tooling.  Two of its
    conventions are needed to say what the data means: how a requirement
    string constrains versions, and where a package lives under a
    [package_dir] mapping.  Neither is code of this repository. *)

Module Packaging.

(** ** Requirement strings: a distribution name, a comparison, a version *)

Inductive comparator : Type := Ge | Gt | Le | Lt | Eq | Ne.

Record requirement : Type := {
  dist : string;
  cmp : comparator;
  ver : list nat
}.

Definition is_digit (c : ascii) : bool :=
  let n := nat_of_ascii c in Nat.leb 48 n && Nat.leb n 57.

Definition is_letter (c : ascii) : bool :=
  let n := nat_of_ascii c in
  (Nat.leb 65 n && Nat.leb n 90) || (Nat.leb 97 n && Nat.leb n 122).

(** Characters of a distribution name: letters, digits, [-], [_] and [.]. *)
Definition is_name_char (c : ascii) : bool :=
  is_letter c || is_digit c ||
  Ascii.eqb c "-"%char || Ascii.eqb c "_"%char || Ascii.eqb c "."%char.

Fixpoint span (p : ascii -> bool) (s : string) : string * string :=
  match s with
  | EmptyString => (EmptyString, EmptyString)
  | String c s' =>
      if p c then let (a, b) := span p s' in (String c a, b)
      else (EmptyString, s)
  end.

Fixpoint split_on (sep : ascii) (s : string) : list string :=
  match s with
  | EmptyString => [EmptyString]
  | String c s' =>
      if Ascii.eqb c sep then EmptyString :: split_on sep s'
      else
        match split_on sep s' with
        | x :: l => String c x :: l
        | [] => [String c EmptyString]
        end
  end.

Fixpoint join_with (sep : string) (l : list string) : string :=
  match l with
  | [] => EmptyString
  | [x] => x
  | x :: l' => x ++ sep ++ join_with sep l'
  end.

Fixpoint number_of (s : string) (acc : nat) : option nat :=
  match s with
  | EmptyString => Some acc
  | String c s' =>
      if is_digit c then number_of s' (10 * acc + (nat_of_ascii c - 48))
      else None
  end.

Definition parse_number (s : string) : option nat :=
  match s with
  | EmptyString => None
  | _ => number_of s 0
  end.

Fixpoint parse_numbers (l : list string) : option (list nat) :=
  match l with
  | [] => Some []
  | x :: l' =>
      match parse_number x, parse_numbers l' with
      | Some n, Some ns => Some (n :: ns)
      | _, _ => None
      end
  end.

(** A release: numbers separated by dots. *)
Definition parse_version (s : string) : option (list nat) :=
  parse_numbers (split_on "."%char s).

Definition is_space (c : ascii) : bool :=
  Ascii.eqb c " "%char || Ascii.eqb c "009"%char.

Definition skip_spaces (s : string) : string := snd (span is_space s).

Fixpoint last_char (s : string) : option ascii :=
  match s with
  | EmptyString => None
  | String c EmptyString => Some c
  | String _ s' => last_char s'
  end.

(** A distribution name starts and ends with a letter or a digit. *)
Definition well_formed_name (s : string) : bool :=
  match s, last_char s with
  | String c _, Some l =>
      (is_letter c || is_digit c) && (is_letter l || is_digit l)
  | _, _ => false
  end.

Definition parse_comparator (s : string) : option (comparator * string) :=
  match s with
  | String ">" (String "=" r) => Some (Ge, r)
  | String "<" (String "=" r) => Some (Le, r)
  | String "=" (String "=" r) => Some (Eq, r)
  | String "!" (String "=" r) => Some (Ne, r)
  | String ">" r => Some (Gt, r)
  | String "<" r => Some (Lt, r)
  | _ => None
  end.

(** The requirements read here: a name, one comparison and a release, with
    optional blanks between them.  Anything else (several comparisons,
    extras, markers, pre-releases) is not read. *)
Definition parse_requirement (s : string) : option requirement :=
  let (d, rest) := span is_name_char s in
  if well_formed_name d then
    match parse_comparator (skip_spaces rest) with
    | Some (c, v) =>
        let (digits, blanks) :=
          span (fun a => is_digit a || Ascii.eqb a "."%char) (skip_spaces v) in
        match skip_spaces blanks, parse_version digits with
        | EmptyString, Some ns => Some {| dist := d; cmp := c; ver := ns |}
        | _, _ => None
        end
    | None => None
    end
  else None.

(** Releases are compared number by number, a missing number counting as
    zero ([2.0] and [2.0.0] are the same release). *)
Definition all_zero (l : list nat) : bool := forallb (Nat.eqb 0) l.

Fixpoint compare_release (a b : list nat) : comparison :=
  match a, b with
  | [], _ => if all_zero b then Datatypes.Eq else Datatypes.Lt
  | _, [] => if all_zero a then Datatypes.Eq else Datatypes.Gt
  | x :: a', y :: b' =>
      match Nat.compare x y with
      | Datatypes.Eq => compare_release a' b'
      | c => c
      end
  end.

(** Does the requirement admit the release [v] of its distribution? *)
Definition admits (r : requirement) (v : list nat) : bool :=
  match cmp r, compare_release v (ver r) with
  | Ge, Datatypes.Lt => false
  | Ge, _ => true
  | Gt, Datatypes.Gt => true
  | Gt, _ => false
  | Le, Datatypes.Gt => false
  | Le, _ => true
  | Lt, Datatypes.Lt => true
  | Lt, _ => false
  | Eq, Datatypes.Eq => true
  | Eq, _ => false
  | Ne, Datatypes.Eq => false
  | Ne, _ => true
  end.

(** ** The directory of a package

    The build looks a dotted package name up in [package_dir], longest
    prefix first; the parts of the name that were not matched are appended
    to the directory found, and the entry of the empty name is the root
    for names with no matching prefix.  The result is the list of path
    components, root first. *)

Fixpoint resolve (package_dir : list (string * string))
    (rpath tail : list string) : list string :=
  match rpath with
  | [] =>
      match Py.lookup "" package_dir with
      | Some d => d :: tail
      | None => tail
      end
  | last :: rinit =>
      match Py.lookup (join_with "." (rev rpath)) package_dir with
      | Some d => d :: tail
      | None => resolve package_dir rinit (last :: tail)
      end
  end.

Definition get_package_dir (package_dir : list (string * string))
    (package : string) : list string :=
  resolve package_dir (rev (split_on "."%char package)) [].

End Packaging.

(* ================================================================== *)
(** * What a run of the manifest does *)
(* ================================================================== *)

Import Py Manifest Packaging.

Section RunFacts.

Context {W : Type} (T : tooling W).

(** The syntax tree, run by the interpreter, is the program written in the
    monad. *)
Lemma exec_setup_py (s : state W) : exec_block T setup_py s = manifest T s.
Proof.
  unfold manifest; simpl; unfold bind.
  destruct (import_name T "setuptools" "setup" s) as [s1 [e|[]]];
    [reflexivity|].
  destruct (import_name T "setuptools" "find_packages" s1) as [s2 [e|[]]];
    [reflexivity|].
  simpl.
  destruct (load T "setup" s2) as [s3 [e|f]]; [reflexivity|]; simpl.
  destruct (load T "find_packages" s3) as [s4 [e|g]]; [reflexivity|]; simpl.
  destruct (call_value T g [] _ s4) as [s5 [e|pk]]; [reflexivity|]; simpl.
  destruct (call_value T f [] _ s5) as [s6 [e|r]]; reflexivity.
Qed.

(** Every run is one of the five of [runs]. *)
Lemma run_runs (w : W) : runs T w (run T w).
Proof.
  unfold run, run_module; rewrite exec_setup_py.
  unfold manifest, bind, import_name, log, store, load, call_value, bind,
    initial; simpl.
  destruct (import_from T "setuptools" "setup" w) as [w1 [msg|]] eqn:I1;
    simpl; [now apply setup_not_importable|].
  destruct (import_from T "setuptools" "find_packages" w1) as [w2 [msg|]]
    eqn:I2; simpl; [now eapply find_packages_not_importable; eauto|].
  destruct (call T "setuptools" "find_packages" [] [("where", VStr "src")] w2)
    as [w3 [msg|pk]] eqn:C1; simpl;
    [now eapply find_packages_raises; eauto|].
  destruct (call T "setuptools" "setup" [] _ w3) as [w4 [msg|r]] eqn:C2;
    simpl.
  - eapply setup_raises; eauto.
  - eapply completes; eauto.
Qed.

Ltac by_cases w :=
  let R := fresh "R" in
  let r := fresh "r" in
  let E := fresh "E" in
  pose proof (run_runs w) as R;
  unfold declared, discovery in *;
  remember (run T w) as r eqn:E;
  destruct R; simpl in *.

(** Whatever reaches [setup] is [setup_kwargs] of what [find_packages]
    answered to the one question it was asked. *)
Lemma declared_inv (w : W) c :
  In c (declared T w) ->
  exists packages,
    c = ([], setup_kwargs packages) /\
    discovery T w = [([], where_src)] /\
    exists w2 w3,
      call T "setuptools" "find_packages" [] where_src w2 = (w3, inr packages).
Proof.
  intros H. by_cases w; try contradiction;
    (destruct H as [<-|[]]; eexists; repeat split; eauto).
Qed.

Lemma discovery_inv (w : W) c :
  In c (discovery T w) -> c = ([], where_src).
Proof.
  intros H.
  by_cases w; try contradiction; destruct H as [<-|[]]; reflexivity.
Qed.

Lemma declared_once (w : W) : length (declared T w) <= 1.
Proof. by_cases w; lia. Qed.

Lemma trace_setuptools (w : W) ev :
  In ev (trace (fst (run T w))) -> event_module ev = "setuptools".
Proof.
  intros H. by_cases w;
    repeat (destruct H as [<-|H]; [reflexivity|]); contradiction.
Qed.

Lemma run_error (w : W) e : snd (run T w) = inl e -> authored e = false.
Proof.
  intros H. by_cases w; inversion H; reflexivity.
Qed.

Lemma run_globals (w : W) id v :
  lookup id (globals (fst (run T w))) = Some v -> lookup id imported = Some v.
Proof.
  intros H. by_cases w; try discriminate; try assumption.
  destruct (String.eqb id "setup"); [exact H|discriminate].
Qed.

Lemma run_locals (w : W) : locals (fst (run T w)) = None.
Proof. by_cases w; reflexivity. Qed.

(** When the world answers every question, the run completes and [setup]
    has been called once. *)
Lemma run_completes (w w1 w2 w3 w4 : W) packages result :
  import_from T "setuptools" "setup" w = (w1, None) ->
  import_from T "setuptools" "find_packages" w1 = (w2, None) ->
  call T "setuptools" "find_packages" [] where_src w2 = (w3, inr packages) ->
  call T "setuptools" "setup" [] (setup_kwargs packages) w3
    = (w4, inr result) ->
  snd (run T w) = inr tt /\ declared T w = [([], setup_kwargs packages)].
Proof.
  intros I1 I2 C1 C2.
  by_cases w;
    repeat match goal with
           | A : ?x = _, B : ?x = _ |- _ =>
               rewrite A in B; inversion B; clear B; subst
           end;
    try discriminate; split; reflexivity.
Qed.

(** A run always ends: either it completes, having called [setup] once, or
    it stops on an exception that was not raised by the authored code. *)
Lemma run_total (w : W) :
  (snd (run T w) = inr tt /\
   exists packages, declared T w = [([], setup_kwargs packages)]) \/
  (exists e, snd (run T w) = inl e /\ authored e = false).
Proof.
  by_cases w;
    solve [ right; eexists; split; reflexivity
          | left; split; [reflexivity|eexists; reflexivity] ].
Qed.

End RunFacts.

(** ** Facts about the tooling's conventions *)

Lemma compare_zeros_not_lt (v zs : list nat) :
  all_zero zs = true -> compare_release v zs <> Datatypes.Lt.
Proof.
  revert zs; induction v as [|x v IH]; intros zs Z.
  - cbn [compare_release]. rewrite Z; discriminate.
  - destruct zs as [|y zs]; cbn [compare_release].
    + destruct (all_zero (x :: v)); discriminate.
    + unfold all_zero in Z; cbn [forallb] in Z.
      apply andb_prop in Z as [Y Z].
      apply Nat.eqb_eq in Y; subst y.
      destruct (Nat.compare_spec x 0) as [E|L|G].
      * now apply IH.
      * lia.
      * discriminate.
Qed.

Lemma admits_at_least_2_0_0 (d : string) (major : nat) (rest : list nat) :
  admits {| dist := d; cmp := Ge; ver := [2; 0; 0] |} (major :: rest) = true
  <-> 2 <= major.
Proof.
  unfold admits; simpl.
  destruct (Nat.compare_spec major 2) as [E|L|G].
  - subst. split; [lia|intros _].
    pose proof (compare_zeros_not_lt rest [0; 0] eq_refl) as N.
    destruct (compare_release rest [0; 0]); congruence.
  - split; [discriminate|lia].
  - split; [lia|reflexivity].
Qed.

Lemma admits_ge_iff (d : string) (bound v : list nat) :
  admits {| dist := d; cmp := Ge; ver := bound |} v = true
  <-> compare_release v bound <> Datatypes.Lt.
Proof.
  unfold admits; simpl.
  destruct (compare_release v bound); split; congruence.
Qed.

Lemma resolve_single_root (root : string) (rpath tail : list string) :
  exists rest, resolve [("", root)] rpath tail = root :: rest.
Proof.
  revert tail; induction rpath as [|last rinit IH]; intros tail.
  - now exists tail.
  - cbn [resolve].
    destruct (lookup (join_with "." (rev (last :: rinit))) [("", root)])
      as [d|] eqn:L.
    + cbn [lookup] in L.
      destruct (String.eqb _ ""); [|discriminate].
      injection L as <-. now exists tail.
    + apply IH.
Qed.

(* ================================================================== *)
(** * What the manifest declares *)
(* ================================================================== *)

(** C2.  The package name declared by the manifest is [remoroo-core]: the
    [name] keyword of the one call of [setup] is that string literal, and in
    every world, whenever [setup] is reached, that is the string it
    receives. *)
Theorem declared_name :
  (exists kws,
     calls_of "setup" setup_py = [([], kws)] /\
     lookup "name" kws = Some (Constant (Str "remoroo-core"))) /\
  (forall (W : Type) (T : tooling W) (w : W) c,
     In c (declared T w) ->
     lookup "name" (snd c) = Some (VStr "remoroo-core")).
Proof.
  split.
  - eexists; split; reflexivity.
  - intros W T w c H.
    destruct (declared_inv T w c H) as (pk & -> & _); reflexivity.
Qed.

Lemma declared_name_witness :
  In ([], setup_kwargs (VList [VStr "pkg"])) (declared installed ["pkg"]) /\
  lookup "name" (setup_kwargs (VList [VStr "pkg"]))
    = Some (VStr "remoroo-core").
Proof.
  split; [left; reflexivity|].
  apply (proj2 declared_name _ installed ["pkg"]
           ([], setup_kwargs (VList [VStr "pkg"]))).
  left; reflexivity.
Defined.

(** C3.  The version declared by the manifest is [0.1.2]: the [version]
    keyword of the call of [setup] is that string literal, and whenever
    [setup] is reached that is the string it receives. *)
Theorem declared_version :
  (exists kws,
     calls_of "setup" setup_py = [([], kws)] /\
     lookup "version" kws = Some (Constant (Str "0.1.2"))) /\
  (forall (W : Type) (T : tooling W) (w : W) c,
     In c (declared T w) ->
     lookup "version" (snd c) = Some (VStr "0.1.2")).
Proof.
  split.
  - eexists; split; reflexivity.
  - intros W T w c H.
    destruct (declared_inv T w c H) as (pk & -> & _); reflexivity.
Qed.

Lemma declared_version_witness :
  In ([], setup_kwargs (VList [])) (declared installed []) /\
  lookup "version" (setup_kwargs (VList [])) = Some (VStr "0.1.2").
Proof.
  split; [left; reflexivity|].
  apply (proj2 declared_version _ installed [] ([], setup_kwargs (VList []))).
  left; reflexivity.
Defined.

(** C1.  The declared dependency set has exactly one entry, and that entry
    asks for a version of at least 2.0.0: [install_requires] is a list of
    one requirement string; the requirement it spells is a [>=] comparison
    with the release 2.0.0, which admits exactly the releases that are not
    below 2.0.0, that is those whose first number is 2 or more; and no other
    keyword that would add dependencies is passed. *)
Theorem one_dependency_at_least_2_0_0 :
  (exists kws r,
     calls_of "setup" setup_py = [([], kws)] /\
     lookup "install_requires" kws = Some (List_ [Constant (Str r)])) /\
  (forall (W : Type) (T : tooling W) (w : W) c,
     In c (declared T w) ->
     exists r req,
       requirements_of (snd c) = Some [r] /\
       parse_requirement r = Some req /\
       cmp req = Ge /\
       ver req = [2; 0; 0] /\
       (forall v,
          admits req v = true
          <-> compare_release v [2; 0; 0] <> Datatypes.Lt) /\
       admits req [] = false /\
       (forall major rest,
          admits req (major :: rest) = true <-> 2 <= major) /\
       lookup "extras_require" (snd c) = None /\
       lookup "setup_requires" (snd c) = None /\
       lookup "tests_require" (snd c) = None).
Proof.
  split.
  - do 2 eexists; split; reflexivity.
  - intros W T w c H.
    destruct (declared_inv T w c H) as (pk & -> & _).
    exists "pydantic>=2.0.0",
      {| dist := "pydantic"; cmp := Ge; ver := [2; 0; 0] |}.
    repeat split; try reflexivity;
      first [ apply (admits_at_least_2_0_0 "pydantic" major rest)
            | apply (admits_ge_iff "pydantic" [2; 0; 0] v) ].
Qed.

Lemma one_dependency_at_least_2_0_0_witness :
  In ([], setup_kwargs (VList [VStr "pkg"])) (declared installed ["pkg"]) /\
  exists r req,
    requirements_of (setup_kwargs (VList [VStr "pkg"])) = Some [r] /\
    parse_requirement r = Some req /\
    admits req [2; 0; 0] = true /\
    admits req [1; 10; 3] = false.
Proof.
  split; [left; reflexivity|].
  destruct (proj2 one_dependency_at_least_2_0_0 _ installed ["pkg"]
              ([], setup_kwargs (VList [VStr "pkg"])))
    as (r & req & R & P & _ & _ & _ & _ & A & _).
  - left; reflexivity.
  - exists r, req. repeat split; try assumption.
    + apply A; lia.
    + destruct (admits req [1; 10; 3]) eqn:E; [|reflexivity].
      apply A in E; lia.
Defined.

(** C9.  The single dependency is the requirement string
    [pydantic>=2.0.0]; the distribution it names is [pydantic]. *)
Theorem dependency_is_pydantic :
  (exists kws,
     calls_of "setup" setup_py = [([], kws)] /\
     lookup "install_requires" kws
       = Some (List_ [Constant (Str "pydantic>=2.0.0")])) /\
  (forall (W : Type) (T : tooling W) (w : W) c,
     In c (declared T w) ->
     requirements_of (snd c) = Some ["pydantic>=2.0.0"] /\
     option_map dist (parse_requirement "pydantic>=2.0.0")
       = Some "pydantic").
Proof.
  split.
  - eexists; split; reflexivity.
  - intros W T w c H.
    destruct (declared_inv T w c H) as (pk & -> & _).
    split; reflexivity.
Qed.

Lemma dependency_is_pydantic_witness :
  In ([], setup_kwargs (VList [VStr "pkg"])) (declared installed ["pkg"]) /\
  requirements_of (setup_kwargs (VList [VStr "pkg"]))
    = Some ["pydantic>=2.0.0"].
Proof.
  split; [left; reflexivity|].
  apply (proj2 dependency_is_pydantic _ installed ["pkg"]
           ([], setup_kwargs (VList [VStr "pkg"]))).
  left; reflexivity.
Defined.

(** C4.  The manifest declares [src] as the source root and has package
    discovery search there: [package_dir] maps the root package (the empty
    name) to [src]; [packages] is the call [find_packages(where="src")];
    the only thing [find_packages] is ever asked is to look in [src], and
    whenever [setup] is reached it was asked exactly once and its answer is
    what [setup] receives as [packages]. *)
Theorem source_root_is_src_and_discovery_searches_it :
  (exists kws,
     calls_of "setup" setup_py = [([], kws)] /\
     lookup "package_dir" kws
       = Some (Dict [(Constant (Str ""), Constant (Str "src"))]) /\
     lookup "packages" kws
       = Some (Call (Name "find_packages") []
                 [("where", Constant (Str "src"))])) /\
  (forall (W : Type) (T : tooling W) (w : W),
     (forall d, In d (discovery T w) -> d = ([], [("where", VStr "src")])) /\
     (forall c,
        In c (declared T w) ->
        package_dir_of (snd c) = Some [("", "src")] /\
        discovery T w = [([], [("where", VStr "src")])] /\
        exists (w2 w3 : W) packages,
          call T "setuptools" "find_packages" [] [("where", VStr "src")] w2
            = (w3, inr packages) /\
          lookup "packages" (snd c) = Some packages)).
Proof.
  split.
  - eexists; repeat split; reflexivity.
  - intros W T w; split.
    + intros d H; exact (discovery_inv T w d H).
    + intros c H.
      destruct (declared_inv T w c H) as (pk & -> & D & w2 & w3 & A).
      repeat split; [exact D|].
      exists w2, w3, pk; split; [exact A|reflexivity].
Qed.

Lemma source_root_is_src_and_discovery_searches_it_witness :
  In ([], setup_kwargs (VList [VStr "pkg"; VStr "pkg.sub"]))
    (declared installed ["pkg"; "pkg.sub"]) /\
  package_dir_of (setup_kwargs (VList [VStr "pkg"; VStr "pkg.sub"]))
    = Some [("", "src")] /\
  discovery installed ["pkg"; "pkg.sub"] = [([], [("where", VStr "src")])].
Proof.
  split; [left; reflexivity|].
  destruct (proj2 (proj2 source_root_is_src_and_discovery_searches_it
                     _ installed ["pkg"; "pkg.sub"])
              ([], setup_kwargs (VList [VStr "pkg"; VStr "pkg.sub"])))
    as (P & D & _).
  - left; reflexivity.
  - split; assumption.
Defined.

(** C10.  The package-directory mapping and the discovery root agree: the
    directory [package_dir] gives for the root package is the directory
    passed as [where] to [find_packages], namely [src]; the mapping has no
    other entry, so the directory of every package, whatever its name,
    starts at [src]. *)
Theorem package_dir_agrees_with_discovery
    (W : Type) (T : tooling W) (w : W) c d :
  In c (declared T w) ->
  In d (discovery T w) ->
  exists root pd,
    package_dir_of (snd c) = Some pd /\
    lookup "" pd = Some root /\
    lookup "where" (snd d) = Some (VStr root) /\
    root = "src" /\
    map fst pd = [""] /\
    forall package, exists rest, get_package_dir pd package = root :: rest.
Proof.
  intros Hc Hd.
  destruct (declared_inv T w c Hc) as (pk & -> & _).
  rewrite (discovery_inv T w d Hd).
  exists "src", [("", "src")].
  repeat split.
  intros package; apply resolve_single_root.
Qed.

Lemma package_dir_agrees_with_discovery_witness :
  exists root pd,
    package_dir_of (setup_kwargs (VList [VStr "pkg"; VStr "pkg.sub"]))
      = Some pd /\
    lookup "" pd = Some root /\
    lookup "where" [("where", VStr "src")] = Some (VStr root) /\
    root = "src" /\
    map fst pd = [""] /\
    forall package, exists rest, get_package_dir pd package = root :: rest.
Proof.
  apply (package_dir_agrees_with_discovery _ installed ["pkg"; "pkg.sub"]
           ([], setup_kwargs (VList [VStr "pkg"; VStr "pkg.sub"]))
           ([], [("where", VStr "src")])).
  - left; reflexivity.
  - left; reflexivity.
Defined.

(** C8.  The call of [setup] passes exactly the five keyword arguments
    [name], [version], [packages], [package_dir] and [install_requires],
    in that order and with no positional argument; [setup] is called at most
    once; no entry points, extras, classifiers or Python version constraint
    are declared. *)
Theorem exactly_five_keywords :
  (exists kws,
     calls_of "setup" setup_py = [([], kws)] /\
     map fst kws
       = ["name"; "version"; "packages"; "package_dir";
          "install_requires"]) /\
  (forall (W : Type) (T : tooling W) (w : W),
     length (declared T w) <= 1 /\
     forall c,
       In c (declared T w) ->
       fst c = [] /\
       map fst (snd c)
         = ["name"; "version"; "packages"; "package_dir";
            "install_requires"] /\
       lookup "entry_points" (snd c) = None /\
       lookup "extras_require" (snd c) = None /\
       lookup "classifiers" (snd c) = None /\
       lookup "python_requires" (snd c) = None).
Proof.
  split.
  - eexists; split; reflexivity.
  - intros W T w; split; [apply declared_once|].
    intros c H.
    destruct (declared_inv T w c H) as (pk & -> & _).
    repeat split.
Qed.

Lemma exactly_five_keywords_witness :
  In ([], setup_kwargs (VList [VStr "pkg"])) (declared installed ["pkg"]) /\
  length (declared installed ["pkg"]) <= 1 /\
  map fst (setup_kwargs (VList [VStr "pkg"]))
    = ["name"; "version"; "packages"; "package_dir"; "install_requires"].
Proof.
  split; [left; reflexivity|].
  destruct (proj2 exactly_five_keywords _ installed ["pkg"]) as (L & K).
  split; [exact L|].
  apply (K ([], setup_kwargs (VList [VStr "pkg"]))).
  left; reflexivity.
Defined.

(** C7.  The declared metadata does not depend on where the manifest is
    evaluated.  Take any two evaluations, in any two worlds and with any
    behaviour of the tooling: what they hand to [setup] agrees on every
    keyword other than [packages], hence on the name, the version, the
    dependency set and the source layout; they put the same question to
    [find_packages]; the answer to it is the only thing that can differ;
    and nothing outside setuptools is ever imported or called. *)
Theorem declared_metadata_is_the_same_everywhere
    (W1 W2 : Type) (T1 : tooling W1) (T2 : tooling W2)
    (w1 : W1) (w2 : W2) c1 c2 :
  In c1 (declared T1 w1) ->
  In c2 (declared T2 w2) ->
  fst c1 = fst c2 /\
  map fst (snd c1) = map fst (snd c2) /\
  (forall k, k <> "packages" -> lookup k (snd c1) = lookup k (snd c2)) /\
  lookup "name" (snd c1) = lookup "name" (snd c2) /\
  lookup "version" (snd c1) = lookup "version" (snd c2) /\
  lookup "install_requires" (snd c1) = lookup "install_requires" (snd c2) /\
  lookup "package_dir" (snd c1) = lookup "package_dir" (snd c2) /\
  discovery T1 w1 = discovery T2 w2 /\
  (lookup "packages" (snd c1) = lookup "packages" (snd c2) -> c1 = c2) /\
  (forall ev, In ev (trace (fst (run T1 w1)) ++ trace (fst (run T2 w2))) ->
              event_module ev = "setuptools").
Proof.
  intros H1 H2.
  destruct (declared_inv T1 w1 c1 H1) as (p1 & -> & D1 & _).
  destruct (declared_inv T2 w2 c2 H2) as (p2 & -> & D2 & _).
  repeat split.
  - intros k Hk; simpl.
    destruct (String.eqb_spec k "packages") as [->|_]; [contradiction|].
    reflexivity.
  - now rewrite D1, D2.
  - simpl; intros E; injection E as ->; reflexivity.
  - intros ev H; apply in_app_or in H as [H|H];
      [exact (trace_setuptools T1 w1 ev H)|exact (trace_setuptools T2 w2 ev H)].
Qed.

Lemma declared_metadata_is_the_same_everywhere_witness :
  lookup "packages" (setup_kwargs (VList [VStr "pkg"]))
    <> lookup "packages" (setup_kwargs (VList [])) /\
  forall k, k <> "packages" ->
    lookup k (setup_kwargs (VList [VStr "pkg"]))
      = lookup k (setup_kwargs (VList [])).
Proof.
  split; [discriminate|].
  apply (declared_metadata_is_the_same_everywhere
           _ _ installed installed ["pkg"] []
           ([], setup_kwargs (VList [VStr "pkg"]))
           ([], setup_kwargs (VList []))).
  - left; reflexivity.
  - left; reflexivity.
Defined.

(** C6.  The authored code has no error branch and raises no error of its
    own.  The manifest contains no [raise]; each argument that spells
    declared metadata evaluates, in every state, to the value declared and
    leaves the state as it was; whenever an evaluation of the manifest stops
    with an exception, the exception was raised by the import system or
    inside [find_packages] or [setup], never by the evaluation of the
    authored code; every evaluation ends, either so or by completing; and
    whenever the import system, [find_packages] and [setup] answer, the
    evaluation completes and has handed the declared metadata to [setup]. *)
Theorem manifest_raises_no_error_of_its_own :
  existsb is_raise setup_py = false /\
  (forall (W : Type) (T : tooling W) (s : state W) kws k e,
     calls_of "setup" setup_py = [([], kws)] ->
     In (k, e) kws ->
     k <> "packages" ->
     exists v,
       eval T e s = (s, inr v) /\
       forall packages, lookup k (setup_kwargs packages) = Some v) /\
  (forall (W : Type) (T : tooling W) (w : W) e,
     snd (run T w) = inl e -> authored e = false) /\
  (forall (W : Type) (T : tooling W) (w : W),
     (snd (run T w) = inr tt /\
      exists packages, declared T w = [([], setup_kwargs packages)]) \/
     (exists e, snd (run T w) = inl e /\ authored e = false)) /\
  (forall (W : Type) (T : tooling W) (w w1 w2 w3 w4 : W) packages result,
     import_from T "setuptools" "setup" w = (w1, None) ->
     import_from T "setuptools" "find_packages" w1 = (w2, None) ->
     call T "setuptools" "find_packages" [] [("where", VStr "src")] w2
       = (w3, inr packages) ->
     call T "setuptools" "setup" [] (setup_kwargs packages) w3
       = (w4, inr result) ->
     snd (run T w) = inr tt /\
     declared T w = [([], setup_kwargs packages)]).
Proof.
  split; [reflexivity|split; [|split; [|split]]].
  - intros W T s kws k e C H N.
    cbn in C; injection C as <-.
    repeat (destruct H as [H|H];
            [injection H as <- <-;
             first [congruence
                   |eexists; split; [cbn; reflexivity|intros; reflexivity]]|]).
    contradiction.
  - intros W T w e H; exact (run_error T w e H).
  - intros W T w; exact (run_total T w).
  - intros W T w w1 w2 w3 w4 packages result I1 I2 C1 C2.
    exact (run_completes T w w1 w2 w3 w4 packages result I1 I2 C1 C2).
Qed.

Lemma manifest_raises_no_error_of_its_own_witness :
  snd (run installed ["pkg"]) = inr tt /\
  declared installed ["pkg"] = [([], setup_kwargs (VList [VStr "pkg"]))] /\
  (exists e, snd (run bare tt) = inl e /\ authored e = false).
Proof.
  destruct manifest_raises_no_error_of_its_own as (_ & _ & E & _ & C).
  destruct (C _ installed ["pkg"] ["pkg"] ["pkg"] ["pkg"] ["pkg"]
              (VList [VStr "pkg"]) VNone
              eq_refl eq_refl eq_refl eq_refl) as (R & D).
  split; [exact R|split; [exact D|]].
  exists (ImportFailed "setuptools" "setup" "No module named setuptools").
  split; [reflexivity|].
  apply (E _ bare tt); reflexivity.
Defined.

(** C5, as stated, fails: the module is not a single call of [setup] on
    literals, because the [packages] argument is itself a call,
    [find_packages(where="src")]. *)
Lemma packages_argument_is_not_a_literal :
  (exists kws e,
     calls_of "setup" setup_py = [([], kws)] /\
     lookup "packages" kws = Some e /\
     is_literal e = false) /\
  ~ single_literal_call "setup" setup_py.
Proof.
  split.
  - do 2 eexists; repeat split; reflexivity.
  - intros (_ & _ & c & C & L).
    cbn in C; injection C as <-.
    discriminate L.
Qed.

(** C5, amended.  Apart from the import, the module is one statement, a call
    of [setup]; every argument of that call is a literal except [packages],
    which is a call of the imported [find_packages] on a literal; the module
    contains no function definition, class definition or assignment, and
    after it has run, in any world, its namespace binds nothing but the two
    imported names. *)
Theorem manifest_is_one_declarative_call :
  only_calls "setup" setup_py = true /\
  existsb is_definition setup_py = false /\
  (exists kws where_,
     calls_of "setup" setup_py = [([], kws)] /\
     (forall k e, In (k, e) kws -> k <> "packages" -> is_literal e = true) /\
     lookup "packages" kws
       = Some (Call (Name "find_packages") [] [("where", where_)]) /\
     is_literal where_ = true) /\
  (forall (W : Type) (T : tooling W) (w : W),
     locals (fst (run T w)) = None /\
     forall id v,
       lookup id (globals (fst (run T w))) = Some v ->
       lookup id imported = Some v).
Proof.
  split; [reflexivity|split; [reflexivity|split]].
  - do 2 eexists; split; [reflexivity|split; [|split; reflexivity]].
    intros k e H N.
    repeat (destruct H as [H|H];
            [injection H as <- <-; first [congruence|reflexivity]|]).
    contradiction.
  - intros W T w; split; [apply run_locals|].
    intros id v H; exact (run_globals T w id v H).
Qed.

Lemma manifest_is_one_declarative_call_witness :
  lookup "setup" (globals (fst (run installed ["pkg"])))
    = Some (VImported "setuptools" "setup") /\
  lookup "setup" imported = Some (VImported "setuptools" "setup").
Proof.
  split; [reflexivity|].
  destruct manifest_is_one_declarative_call as (_ & _ & _ & N).
  apply (proj2 (N _ installed ["pkg"])); reflexivity.
Defined.

(* ================================================================== *)
(** * Order and failure *)
(* ================================================================== *)

Ltac run_cases T w :=
  let R := fresh "R" in
  let r := fresh "r" in
  let E := fresh "E" in
  pose proof (run_runs T w) as R;
  unfold declared, discovery in *;
  remember (run T w) as r eqn:E;
  destruct R; simpl in *.



(** X2.  Whenever [setup] is called, both imports have succeeded,
    [find_packages] has been called before it and has returned, [setup] is
    called in the world [find_packages] left and with its answer, the call
    of [setup] is the last thing the manifest does, and the module's
    namespace holds the two imported names. *)
Theorem find_packages_is_called_before_setup
    (W : Type) (T : tooling W) (w : W) c :
  In c (declared T w) ->
  exists w1 w2 w3 packages,
    import_from T "setuptools" "setup" w = (w1, None) /\
    import_from T "setuptools" "find_packages" w1 = (w2, None) /\
    call T "setuptools" "find_packages" [] [("where", VStr "src")] w2
      = (w3, inr packages) /\
    c = ([], setup_kwargs packages) /\
    world (fst (run T w))
      = fst (call T "setuptools" "setup" [] (setup_kwargs packages) w3) /\
    trace (fst (run T w))
      = [EvImport "setuptools" "setup";
         EvImport "setuptools" "find_packages";
         EvCall "setuptools" "find_packages" [] [("where", VStr "src")];
         EvCall "setuptools" "setup" [] (setup_kwargs packages)] /\
    globals (fst (run T w)) = imported.
Proof.
  intros H.
  run_cases T w; try contradiction; destruct H as [<-|[]];
    exists w1, w2, w3, packages; repeat split; auto;
    match goal with
    | A : call T "setuptools" "setup" _ _ _ = _ |- _ => now rewrite A
    end.
Qed.

Lemma find_packages_is_called_before_setup_witness :
  In ([], setup_kwargs (VList [VStr "pkg"])) (declared installed ["pkg"]) /\
  trace (fst (run installed ["pkg"]))
    = [EvImport "setuptools" "setup";
       EvImport "setuptools" "find_packages";
       EvCall "setuptools" "find_packages" [] [("where", VStr "src")];
       EvCall "setuptools" "setup" [] (setup_kwargs (VList [VStr "pkg"]))].
Proof.
  split; [left; reflexivity|].
  destruct (find_packages_is_called_before_setup _ installed ["pkg"]
              ([], setup_kwargs (VList [VStr "pkg"])))
    as (w1 & w2 & w3 & pk & _ & _ & _ & C & _ & Tr & _).
  - left; reflexivity.
  - injection C as <-. exact Tr.
Defined.

(** X3.  When [find_packages] raises, [setup] is never called: the
    evaluation stops with that exception after the one question put to
    [find_packages], and no metadata is handed over. *)
Theorem find_packages_failure_prevents_setup
    (W : Type) (T : tooling W) (w : W) msg :
  snd (run T w) = inl (ToolRaised "setuptools" "find_packages" msg) ->
  declared T w = [] /\
  discovery T w = [([], [("where", VStr "src")])] /\
  exists w2 w3,
    call T "setuptools" "find_packages" [] [("where", VStr "src")] w2
      = (w3, inl msg) /\
    world (fst (run T w)) = w3.
Proof.
  intros H.
  run_cases T w; try discriminate; injection H as <-;
    repeat split; eauto.
Qed.

Lemma find_packages_failure_prevents_setup_witness :
  snd (run (scripted (inl "src is not readable") (inr VNone)) tt)
    = inl (ToolRaised "setuptools" "find_packages" "src is not readable") /\
  declared (scripted (inl "src is not readable") (inr VNone)) tt = [].
Proof.
  split; [reflexivity|].
  apply (find_packages_failure_prevents_setup _
           (scripted (inl "src is not readable") (inr VNone)) tt
           "src is not readable" eq_refl).
Defined.


(** X5.  An exception raised inside [setup] is passed on as it is: the
    evaluation ends with the message [setup] raised, after the metadata has
    been handed over; the manifest neither catches nor rewrites it.  And an
    exception of the tooling that ends an evaluation always comes from
    [find_packages] or [setup] of setuptools. *)
Theorem setup_failure_is_passed_on
    (W : Type) (T : tooling W) (w : W) m n msg :
  snd (run T w) = inl (ToolRaised m n msg) ->
  m = "setuptools" /\
  (n = "find_packages" \/ n = "setup") /\
  (n = "setup" ->
   exists w3 w4 packages,
     declared T w = [([], setup_kwargs packages)] /\
     call T "setuptools" "setup" [] (setup_kwargs packages) w3
       = (w4, inl msg) /\
     world (fst (run T w)) = w4).
Proof.
  intros H.
  run_cases T w; try discriminate; injection H as <- <- <-;
    repeat split; auto; intros N; try discriminate N; eauto 6.
Qed.

Lemma setup_failure_is_passed_on_witness :
  snd (run (scripted (inr (VList [])) (inl "no commands supplied")) tt)
    = inl (ToolRaised "setuptools" "setup" "no commands supplied") /\
  exists packages,
    declared (scripted (inr (VList [])) (inl "no commands supplied")) tt
      = [([], setup_kwargs packages)].
Proof.
  split; [reflexivity|].
  destruct (setup_failure_is_passed_on _
              (scripted (inr (VList [])) (inl "no commands supplied")) tt
              "setuptools" "setup" "no commands supplied" eq_refl)
    as (_ & _ & S).
  destruct (S eq_refl) as (w3 & w4 & pk & D & _).
  exists pk; exact D.
Defined.
